(** * COMET [comet/cli/train.py]: the [train_command] entry point

    A shallow embedding of [train_command] and of the orchestration it
    performs: resolve the configuration, seed the random-number state, build
    the callbacks and the driver, select and build one model variant, silence
    one warning and start [fit].

    The collaborators the function calls but does not define (jsonargparse,
    pytorch_lightning, the model classes, [json.dumps]) are kept abstract:
    every call to one of them is recorded in a trace of events and its outcome
    (a value or a raised exception) is read from a record of externals. *)

From stdpp Require Import base strings list gmap.
From Stdlib Require Import ZArith.

Local Open Scope Z_scope.
Local Open Scope string_scope.
Local Open Scope list_scope.

(** ** Classes named by the source *)

(** The five metric models imported from [comet.models] (lines 34-36). *)
Inductive Variant :=
  | RegressionMetric
  | ReferencelessRegression
  | RankingMetric
  | UniTEMetric
  | CSPECMetric.

(** Every class [train_command] instantiates. *)
Inductive Class :=
  | Model (v : Variant)
  | ModelCheckpoint
  | EarlyStopping
  | LearningRateMonitor
  | Trainer.

#[global] Instance Variant_eq_dec : EqDecision Variant.
Proof. solve_decision. Defined.

#[global] Instance Class_eq_dec : EqDecision Class.
Proof. solve_decision. Defined.


(** The keys registered with [add_subclass_arguments] (lines 54-63). *)
Inductive SubKey :=
  | K_regression_metric
  | K_referenceless_regression_metric
  | K_ranking_metric
  | K_unite_metric
  | K_cspec_metric
  | K_early_stopping
  | K_model_checkpoint
  | K_trainer.

#[global] Instance SubKey_eq_dec : EqDecision SubKey.
Proof. solve_decision. Defined.

(** A raised Python exception: its class and its message. *)
Record exn := PyErr { exn_class : string; exn_msg : string }.

Section Embedding.

(** [Obj] is whatever an external constructor returns, [Namespace] a
    jsonargparse namespace of constructor arguments. *)
Variables (Obj Namespace : Type).

(** Python values that reach a keyword-argument dictionary. *)
#[local] Set Warnings "-register-all".
Inductive value :=
  | VNone
  | VBool (b : bool)
  | VInt (z : Z)
  | VStr (s : string)
  | VList (l : list value)
  | VDict (d : list (string * value))
  | VObj (c : Class) (o : Obj).

(** ** The parsed configuration *)

(** What [add_subclass_arguments] stores under a key. *)
Record SubNs := { class_path : string; init_args : Namespace }.

(** [cfg], as [train_command] reads it: [None] is Python's [None].  The
    [model] group of line 53 is parsed but never read, and is left out. *)
Record Config := {
  seed_everything : Z;
  regression_metric : option SubNs;
  referenceless_regression_metric : option SubNs;
  ranking_metric : option SubNs;
  unite_metric : option SubNs;
  cspec_metric : option SubNs;
  early_stopping : option SubNs;
  model_checkpoint : option SubNs;
  trainer : option SubNs
}.

(** ** Externals and events *)

(** The outcome of every call that leaves the source: [inl] is a raised
    exception.  [init c kwargs] is the constructor of class [c] called on
    keyword arguments; [json_dumps] is [json.dumps] on the trainer dictionary
    (line 77) and [json_dumps_ns] on an [init_args] namespace (lines 83-117);
    [namespace_to_dict] is jsonargparse's conversion. *)
Record Externals := {
  namespace_to_dict : Namespace → gmap string value;
  pl_seed_everything : Z → exn + unit;
  init : Class → gmap string value → exn + Obj;
  json_dumps : gmap string value → exn + string;
  json_dumps_ns : Namespace → exn + string;
  fit : value → value → exn + unit
}.

(** What a run does, in order: [EvNew] is a constructor being called,
    [EvBuilt] its returning an instance. *)
Inductive event :=
  | EvParseArgs
  | EvSeed (seed : Z)
  | EvNew (c : Class) (kwargs : gmap string value)
  | EvBuilt (c : Class) (o : Obj)
  | EvPrint (s : string)
  | EvFilterWarnings (action category message : string)
  | EvFit (t m : value).

(** ** The monad: a trace of events and a value or a raised exception *)

Definition M (A : Type) : Type := list event * (exn + A).

#[export] Instance M_ret : MRet M := λ A a, ([], inr a).

#[export] Instance M_bind : MBind M := λ A B f m,
  match m with
  | (t, inl e) => (t, inl e)
  | (t, inr a) => let '(t', r) := f a in ((t ++ t')%list, r)
  end.

Definition raise {A} (e : exn) : M A := ([], inl e).
Definition emit (ev : event) : M unit := ([ev], inr ()).
Definition lift {A} (r : exn + A) : M A := ([], r).

Definition trace_of {A} (m : M A) : list event := fst m.
Definition result_of {A} (m : M A) : exn + A := snd m.

Variable E : Externals.

(** Calling class [c] on the keyword arguments [kwargs]: the call is
    recorded, then the instance if one is returned. *)
Definition new (c : Class) (kwargs : gmap string value) : M value :=
  emit (EvNew c kwargs);;
  o ← lift (init E c kwargs);
  emit (EvBuilt c o);;
  mret (VObj c o).

Definition print (s : string) : M unit := emit (EvPrint s).

(** [ns.init_args], where [ns] may be [None]. *)
Definition get_init_args (ns : option SubNs) : M Namespace :=
  match ns with
  | Some s => mret (init_args s)
  | None =>
      raise (PyErr "AttributeError"
                   "'NoneType' object has no attribute 'init_args'")
  end.

(** One branch of the [if]/[elif] chain (lines 82-87 and its siblings). *)
Definition build_model (v : Variant) (s : SubNs) : M value :=
  txt ← lift (json_dumps_ns E (init_args s));
  print txt;;
  new (Model v) (namespace_to_dict E (init_args s)).

(** Lines 65-131: everything after [cfg = parser.parse_args()]. *)
Definition train_command_cfg (cfg : Config) : M unit :=
  emit (EvSeed (seed_everything cfg));;
  lift (pl_seed_everything E (seed_everything cfg));;
  mc_args ← get_init_args (model_checkpoint cfg);
  checkpoint_callback ← new ModelCheckpoint (namespace_to_dict E mc_args);
  es_args ← get_init_args (early_stopping cfg);
  early_stop_callback ← new EarlyStopping (namespace_to_dict E es_args);
  tr_args ← get_init_args (trainer cfg);
  let trainer_args := namespace_to_dict E tr_args in
  lr_monitor ← new LearningRateMonitor {["logging_interval" := VStr "step"]};
  let trainer_args :=
    <["callbacks" :=
        VList [early_stop_callback; checkpoint_callback; lr_monitor]]>
      trainer_args in
  print "TRAINER ARGUMENTS: ";;
  txt ← lift (json_dumps E trainer_args);
  print txt;;
  trainer ← new Trainer trainer_args;
  print "MODEL ARGUMENTS: ";;
  model ←
    match regression_metric cfg with
    | Some s => build_model RegressionMetric s
    | None =>
    match referenceless_regression_metric cfg with
    | Some s => build_model ReferencelessRegression s
    | None =>
    match ranking_metric cfg with
    | Some s => build_model RankingMetric s
    | None =>
    match unite_metric cfg with
    | Some s => build_model UniTEMetric s
    | None =>
    match cspec_metric cfg with
    | Some s => build_model CSPECMetric s
    | None => raise (PyErr "Exception" "Model configurations missing!")
    end end end end end;
  emit (EvFilterWarnings
          "ignore" "UserWarning"
          ".*Consider increasing the value of the `num_workers` argument` .*");;
  emit (EvFit trainer model);;
  lift (fit E trainer model).

(** ** The argument parser (lines 45-64)

    jsonargparse is an external collaborator.  What the source fixes is the
    set of keys and the default of [--seed_everything]; the library starts
    from the defaults and applies the command line left to right, a
    [--cfg] file assigning every key it holds at the place it is named. *)

(** One assignment: the seed, or an update of the namespace under a key
    (a class path, one [init_args] entry, a whole nested document). *)
Inductive setting :=
  | Set_seed_everything (n : Z)
  | Set_sub (k : SubKey) (upd : option SubNs → option SubNs).

Inductive cli_arg :=
  | Flag (s : setting)
  | CfgFile (body : list setting)
  | Unrecognized (tok : string).

(** Line 49: [default=12]; a subclass key nobody assigns stays [None]. *)
Definition defaults : Config :=
  {| seed_everything := 12;
     regression_metric := None;
     referenceless_regression_metric := None;
     ranking_metric := None;
     unite_metric := None;
     cspec_metric := None;
     early_stopping := None;
     model_checkpoint := None;
     trainer := None |}.

Definition set_seed (n : Z) (cfg : Config) : Config :=
  {| seed_everything := n;
     regression_metric := regression_metric cfg;
     referenceless_regression_metric := referenceless_regression_metric cfg;
     ranking_metric := ranking_metric cfg;
     unite_metric := unite_metric cfg;
     cspec_metric := cspec_metric cfg;
     early_stopping := early_stopping cfg;
     model_checkpoint := model_checkpoint cfg;
     trainer := trainer cfg |}.

Definition get_sub (k : SubKey) (cfg : Config) : option SubNs :=
  match k with
  | K_regression_metric => regression_metric cfg
  | K_referenceless_regression_metric => referenceless_regression_metric cfg
  | K_ranking_metric => ranking_metric cfg
  | K_unite_metric => unite_metric cfg
  | K_cspec_metric => cspec_metric cfg
  | K_early_stopping => early_stopping cfg
  | K_model_checkpoint => model_checkpoint cfg
  | K_trainer => trainer cfg
  end.

Definition set_sub (k : SubKey) (s : option SubNs) (cfg : Config) : Config :=
  let pick k' := if decide (k' = k) then s else get_sub k' cfg in
  {| seed_everything := seed_everything cfg;
     regression_metric := pick K_regression_metric;
     referenceless_regression_metric := pick K_referenceless_regression_metric;
     ranking_metric := pick K_ranking_metric;
     unite_metric := pick K_unite_metric;
     cspec_metric := pick K_cspec_metric;
     early_stopping := pick K_early_stopping;
     model_checkpoint := pick K_model_checkpoint;
     trainer := pick K_trainer |}.

Definition apply_setting (cfg : Config) (s : setting) : Config :=
  match s with
  | Set_seed_everything n => set_seed n cfg
  | Set_sub k upd => set_sub k (upd (get_sub k cfg)) cfg
  end.

Fixpoint parse_from (cfg : Config) (argv : list cli_arg) : exn + Config :=
  match argv with
  | [] => inr cfg
  | Flag s :: rest => parse_from (apply_setting cfg s) rest
  | CfgFile body :: rest => parse_from (fold_left apply_setting body cfg) rest
  | Unrecognized tok :: _ => inl (PyErr "SystemExit" "2")
  end.

Definition parse_args (argv : list cli_arg) : exn + Config :=
  parse_from defaults argv.

(** Lines 44-131. *)
Definition train_command (argv : list cli_arg) : M unit :=
  emit EvParseArgs;;
  cfg ← lift (parse_args argv);
  train_command_cfg cfg.

(** ** Vocabulary of the specification *)

(** The fixed selection priority of section 4.2. *)
Definition priority : list Variant :=
  [RegressionMetric; ReferencelessRegression; RankingMetric; UniTEMetric;
   CSPECMetric].

Definition variant_cfg (cfg : Config) (v : Variant) : option SubNs :=
  match v with
  | RegressionMetric => regression_metric cfg
  | ReferencelessRegression => referenceless_regression_metric cfg
  | RankingMetric => ranking_metric cfg
  | UniTEMetric => unite_metric cfg
  | CSPECMetric => cspec_metric cfg
  end.

Definition present (cfg : Config) (v : Variant) : bool :=
  match variant_cfg cfg v with Some _ => true | None => false end.

(** The variant earliest in [priority] whose sub-configuration is present. *)
Definition first_present (cfg : Config) : option Variant :=
  List.find (present cfg) priority.

(** [cfg] with every variant other than [v] set to [None]. *)
Definition only (v : Variant) (cfg : Config) : Config :=
  let keep v' := if decide (v' = v) then variant_cfg cfg v' else None in
  {| seed_everything := seed_everything cfg;
     regression_metric := keep RegressionMetric;
     referenceless_regression_metric := keep ReferencelessRegression;
     ranking_metric := keep RankingMetric;
     unite_metric := keep UniTEMetric;
     cspec_metric := keep CSPECMetric;
     early_stopping := early_stopping cfg;
     model_checkpoint := model_checkpoint cfg;
     trainer := trainer cfg |}.

(** The model constructor calls of a trace, in order. *)
Definition model_calls (t : list event)
  : list (Variant * gmap string value) :=
  omap (λ ev, match ev with
              | EvNew (Model v) kw => Some (v, kw)
              | _ => None
              end) t.

(** The steps of section 4.5; the audit prints belong to no step. *)
Inductive step :=
  | Resolve | Seed | Callbacks | Driver | SelectModel | Suppress | Fit.

Definition step_index (s : step) : nat :=
  match s with
  | Resolve => 1 | Seed => 2 | Callbacks => 3 | Driver => 4
  | SelectModel => 5 | Suppress => 7 | Fit => 8
  end.

Definition class_step (c : Class) : step :=
  match c with
  | Model _ => SelectModel
  | Trainer => Driver
  | ModelCheckpoint | EarlyStopping | LearningRateMonitor => Callbacks
  end.

Definition step_of (ev : event) : option step :=
  match ev with
  | EvParseArgs => Some Resolve
  | EvSeed _ => Some Seed
  | EvNew c _ | EvBuilt c _ => Some (class_step c)
  | EvPrint _ => None
  | EvFilterWarnings _ _ _ => Some Suppress
  | EvFit _ _ => Some Fit
  end.

Definition steps (t : list event) : list nat :=
  step_index <$> omap step_of t.

Fixpoint nondecreasing (l : list nat) : bool :=
  match l with
  | a :: (b :: _) as rest => (a <=? b)%nat && nondecreasing rest
  | _ => true
  end.

Definition class_of (v : value) : option Class :=
  match v with VObj c _ => Some c | _ => None end.

Definition sets_seed (s : setting) : bool :=
  match s with Set_seed_everything _ => true | Set_sub _ _ => false end.

(** [--seed_everything] occurs on the command line. *)
Definition seed_flag_given (argv : list cli_arg) : bool :=
  existsb (λ a, match a with Flag s => sets_seed s | _ => false end) argv.

(** A configuration file named on the command line holds the key
    [seed_everything]. *)
Definition seed_in_cfg_file (argv : list cli_arg) : bool :=
  existsb (λ a, match a with
                | CfgFile body => existsb sets_seed body
                | _ => false
                end) argv.

(** The classes whose constructor a trace calls, in order. *)
Definition new_classes (t : list event) : list Class :=
  omap (λ ev, match ev with EvNew c _ => Some c | _ => None end) t.

(** The classes whose constructor returned an instance, in order. *)
Definition built_classes (t : list event) : list Class :=
  omap (λ ev, match ev with EvBuilt c _ => Some c | _ => None end) t.

(** Two configurations with the same seed and, under every key, the same
    [init_args] (or [None] in both): they may differ in [class_path]. *)
Definition same_init_args (cfg cfg' : Config) : Prop :=
  seed_everything cfg = seed_everything cfg' ∧
  ∀ k, init_args <$> get_sub k cfg = init_args <$> get_sub k cfg'.

End Embedding.

Arguments VNone {Obj}.
Arguments VBool {Obj} b.
Arguments VInt {Obj} z.
Arguments VStr {Obj} s.
Arguments VList {Obj} l.
Arguments VDict {Obj} d.
Arguments VObj {Obj} c o.
Arguments class_path {Namespace} s.
Arguments init_args {Namespace} s.
Arguments seed_everything {Namespace} c.
Arguments regression_metric {Namespace} c.
Arguments referenceless_regression_metric {Namespace} c.
Arguments ranking_metric {Namespace} c.
Arguments unite_metric {Namespace} c.
Arguments cspec_metric {Namespace} c.
Arguments early_stopping {Namespace} c.
Arguments model_checkpoint {Namespace} c.
Arguments trainer {Namespace} c.
Arguments namespace_to_dict {Obj Namespace} e ns.
Arguments pl_seed_everything {Obj Namespace} e seed.
Arguments init {Obj Namespace} e c kwargs.
Arguments json_dumps {Obj Namespace} e kwargs.
Arguments json_dumps_ns {Obj Namespace} e ns.
Arguments fit {Obj Namespace} e t m.
Arguments EvParseArgs {Obj}.
Arguments EvSeed {Obj} seed.
Arguments EvNew {Obj} c kwargs.
Arguments EvBuilt {Obj} c o.
Arguments EvPrint {Obj} s.
Arguments EvFilterWarnings {Obj} action category message.
Arguments EvFit {Obj} t m.
Arguments trace_of {Obj A} m.
Arguments result_of {Obj A} m.
Arguments raise {Obj A} e.
Arguments emit {Obj} ev.
Arguments lift {Obj A} r.
Arguments new {Obj Namespace} E c kwargs.
Arguments print {Obj} s.
Arguments get_init_args {Obj Namespace} ns.
Arguments build_model {Obj Namespace} E v s.
Arguments train_command_cfg {Obj Namespace} E cfg.
Arguments Set_seed_everything {Namespace} n.
Arguments Set_sub {Namespace} k upd.
Arguments Flag {Namespace} s.
Arguments CfgFile {Namespace} body.
Arguments Unrecognized {Namespace} tok.
Arguments defaults {Namespace}.
Arguments set_seed {Namespace} n cfg.
Arguments get_sub {Namespace} k cfg.
Arguments set_sub {Namespace} k s cfg.
Arguments apply_setting {Namespace} cfg s.
Arguments parse_from {Namespace} cfg argv.
Arguments parse_args {Namespace} argv.
Arguments train_command {Obj Namespace} E argv.
Arguments variant_cfg {Namespace} cfg v.
Arguments present {Namespace} cfg v.
Arguments first_present {Namespace} cfg.
Arguments only {Namespace} v cfg.
Arguments model_calls {Obj} t.
Arguments step_of {Obj} ev.
Arguments steps {Obj} t.
Arguments class_of {Obj} v.
Arguments sets_seed {Namespace} s.
Arguments seed_flag_given {Namespace} argv.
Arguments seed_in_cfg_file {Namespace} argv.
Arguments new_classes {Obj} t.
Arguments built_classes {Obj} t.
Arguments same_init_args {Namespace} cfg cfg'.

(** ** A concrete world, for running the embedding *)

(** Externals that never raise; a namespace is its own dictionary and an
    instance is known by a number. *)
Definition quiet : Externals nat (gmap string (value nat)) :=
  {| namespace_to_dict := λ ns, ns;
     pl_seed_everything := λ _, inr ();
     init := λ c _,
       inr (match c with
            | ModelCheckpoint => 1 | EarlyStopping => 2
            | LearningRateMonitor => 3 | Trainer => 4 | Model _ => 5
            end)%nat;
     json_dumps := λ _, inr "{}";
     json_dumps_ns := λ _, inr "{}";
     fit := λ _ _, inr () |}.

Definition sub_of (args : gmap string (value nat))
  : SubNs (gmap string (value nat)) :=
  {| class_path := ""; init_args := args |}.

(** [ranking_metric] with [margin], a trainer with [max_epochs] and a
    [callbacks] entry of the user's own. *)
Definition cfg_ranking : Config (gmap string (value nat)) :=
  {| seed_everything := 12;
     regression_metric := None;
     referenceless_regression_metric := None;
     ranking_metric := Some (sub_of {["margin" := VInt 1]});
     unite_metric := None;
     cspec_metric := None;
     early_stopping := Some (sub_of ∅);
     model_checkpoint := Some (sub_of ∅);
     trainer :=
       Some (sub_of (<["callbacks" := VList [VStr "mine"]]>
                       {["max_epochs" := VInt 10]})) |}.

(** Two variants configured at once. *)
Definition cfg_two : Config (gmap string (value nat)) :=
  {| seed_everything := 7;
     regression_metric := None;
     referenceless_regression_metric := None;
     ranking_metric := Some (sub_of {["margin" := VInt 1]});
     unite_metric := None;
     cspec_metric := Some (sub_of ∅);
     early_stopping := Some (sub_of ∅);
     model_checkpoint := Some (sub_of ∅);
     trainer := Some (sub_of ∅) |}.

(** No variant configured. *)
Definition cfg_none : Config (gmap string (value nat)) :=
  {| seed_everything := 12;
     regression_metric := None;
     referenceless_regression_metric := None;
     ranking_metric := None;
     unite_metric := None;
     cspec_metric := None;
     early_stopping := Some (sub_of ∅);
     model_checkpoint := Some (sub_of ∅);
     trainer := Some (sub_of ∅) |}.

(** What the driver constructor receives in the run of [cfg_ranking]. *)
Definition kw_ranking : gmap string (value nat) :=
  <["callbacks" :=
      VList [VObj EarlyStopping 2%nat; VObj ModelCheckpoint 1%nat;
             VObj LearningRateMonitor 3%nat]]>
    (<["callbacks" := VList [VStr "mine"]]> {["max_epochs" := VInt 10]}).

(** A command line that resolves to [cfg_ranking]: a configuration file for
    the model and the callbacks, then two trainer flags. *)
Definition argv_ranking : list (cli_arg (gmap string (value nat))) :=
  [CfgFile
     [Set_sub K_ranking_metric (λ _, Some (sub_of {["margin" := VInt 1]}));
      Set_sub K_early_stopping (λ _, Some (sub_of ∅));
      Set_sub K_model_checkpoint (λ _, Some (sub_of ∅))];
   Flag (Set_sub K_trainer (λ _, Some (sub_of {["max_epochs" := VInt 10]})));
   Flag (Set_sub K_trainer
           (λ o, match o with
                 | Some s =>
                     Some (sub_of (<["callbacks" := VList [VStr "mine"]]>
                                     (init_args s)))
                 | None => None
                 end))].

(** A command line that configures no variant. *)
Definition argv_none : list (cli_arg (gmap string (value nat))) :=
  [CfgFile
     [Set_sub K_early_stopping (λ _, Some (sub_of ∅));
      Set_sub K_model_checkpoint (λ _, Some (sub_of ∅));
      Set_sub K_trainer (λ _, Some (sub_of ∅))]].

(** No [--seed_everything] flag, and a configuration file that holds the
    key. *)
Definition argv_seed_file : list (cli_arg (gmap string (value nat))) :=
  [CfgFile [Set_seed_everything 42]].

(** [quiet], except that the driver constructor rejects its arguments. *)
Definition strict : Externals nat (gmap string (value nat)) :=
  {| namespace_to_dict := λ ns, ns;
     pl_seed_everything := λ _, inr ();
     init := λ c _,
       match c with
       | ModelCheckpoint => inr 1%nat
       | EarlyStopping => inr 2%nat
       | LearningRateMonitor => inr 3%nat
       | Trainer => inl (PyErr "TypeError" "unexpected keyword argument")
       | Model _ => inr 5%nat
       end;
     json_dumps := λ _, inr "{}";
     json_dumps_ns := λ _, inr "{}";
     fit := λ _ _, inr () |}.

(** [quiet], except that a dictionary whose [callbacks] entry is a list of
    three instances does not serialise; every other dictionary does. *)
Definition picky : Externals nat (gmap string (value nat)) :=
  {| namespace_to_dict := λ ns, ns;
     pl_seed_everything := λ _, inr ();
     init := init quiet;
     json_dumps := λ kw,
       match kw !! "callbacks" with
       | Some (VList [VObj _ _; VObj _ _; VObj _ _]) =>
           inl (PyErr "ValueError" "Circular reference detected")
       | _ => inr "{}"
       end;
     json_dumps_ns := λ _, inr "{}";
     fit := λ _ _, inr () |}.

(** [quiet], except that the seed must fit in 32 bits. *)
Definition bounded : Externals nat (gmap string (value nat)) :=
  {| namespace_to_dict := λ ns, ns;
     pl_seed_everything := λ z,
       if ((0 <=? z)%Z && (z <=? 4294967295)%Z)%bool then inr ()
       else inl (PyErr "ValueError" "seed out of bounds");
     init := init quiet;
     json_dumps := λ _, inr "{}";
     json_dumps_ns := λ _, inr "{}";
     fit := λ _ _, inr () |}.

(** [cfg_none] with a negative seed. *)
Definition cfg_bad_seed : Config (gmap string (value nat)) :=
  {| seed_everything := -1;
     regression_metric := None;
     referenceless_regression_metric := None;
     ranking_metric := None;
     unite_metric := None;
     cspec_metric := None;
     early_stopping := Some (sub_of ∅);
     model_checkpoint := Some (sub_of ∅);
     trainer := Some (sub_of ∅) |}.

(** [cfg_ranking] without a checkpoint namespace. *)
Definition cfg_no_checkpoint : Config (gmap string (value nat)) :=
  {| seed_everything := 12;
     regression_metric := None;
     referenceless_regression_metric := None;
     ranking_metric := Some (sub_of {["margin" := VInt 1]});
     unite_metric := None;
     cspec_metric := None;
     early_stopping := Some (sub_of ∅);
     model_checkpoint := None;
     trainer := Some (sub_of ∅) |}.

(** [cfg_two] with a subclass named under [ranking_metric]. *)
Definition cfg_two_subclass : Config (gmap string (value nat)) :=
  {| seed_everything := 7;
     regression_metric := None;
     referenceless_regression_metric := None;
     ranking_metric :=
       Some {| class_path := "my_models.BetterRanking";
               init_args := {["margin" := VInt 1]} |};
     unite_metric := None;
     cspec_metric := Some (sub_of ∅);
     early_stopping := Some (sub_of ∅);
     model_checkpoint := Some (sub_of ∅);
     trainer := Some (sub_of ∅) |}.

(** The embedding runs: the steps of the full run of [argv_ranking], and a
    list out of order. *)
Example steps_of_ranking_run :
  steps (trace_of (train_command quiet argv_ranking)) =
    [1; 2; 3; 3; 3; 3; 3; 3; 4; 4; 5; 5; 7; 8]%nat.
Proof. vm_compute. reflexivity. Qed.

Example nondecreasing_rejects : nondecreasing [1; 3; 2]%nat = false.
Proof. reflexivity. Qed.

Example result_of_ranking_run :
  result_of (train_command quiet argv_ranking) = inr ().
Proof. vm_compute. reflexivity. Qed.

Example parse_unrecognized :
  parse_args (argv_none ++ [Unrecognized "--no_such_key"]) =
    inl (PyErr "SystemExit" "2").
Proof. reflexivity. Qed.

(** * Properties *)

(** Inversion of a run [H : run = (t, r)]: split, in program order, on every
    outcome an external call or a configuration field can have. *)
Ltac is_outcome x :=
  lazymatch x with
  | init _ _ _ => idtac
  | pl_seed_everything _ _ => idtac
  | json_dumps _ _ => idtac
  | json_dumps_ns _ _ => idtac
  | parse_args _ => idtac
  | regression_metric _ => idtac
  | referenceless_regression_metric _ => idtac
  | ranking_metric _ => idtac
  | unite_metric _ => idtac
  | cspec_metric _ => idtac
  | early_stopping _ => idtac
  | model_checkpoint _ => idtac
  | trainer _ => idtac
  end.

Ltac pending t :=
  lazymatch t with
  | match ?x with _ => _ end => pending x
  | mbind _ ?m => pending m
  | _ => t
  end.

Ltac run_simpl H := cbn [mbind mret M_bind M_ret fst snd app] in H.

Ltac run_step H :=
  lazymatch type of H with
  | ?m = _ => let x := pending m in is_outcome x; destruct x eqn:?
  end;
  run_simpl H.

Ltac run_inv H :=
  unfold train_command, train_command_cfg, build_model, new, print,
    get_init_args, emit, lift, raise in H;
  run_simpl H;
  repeat run_step H;
  injection H as <- <-.

(** Name the trace and the result of the run in the goal, then invert it. *)
Ltac run_cases t r :=
  unfold trace_of, result_of in *;
  match goal with
  | |- context [train_command ?E ?a] =>
      let H := fresh "Hrun" in
      destruct (train_command E a) as [t r] eqn:H;
      cbn [fst snd] in *; run_inv H
  | |- context [train_command_cfg ?E ?c] =>
      let H := fresh "Hrun" in
      destruct (train_command_cfg E c) as [t r] eqn:H;
      cbn [fst snd] in *; run_inv H
  end.

Ltac in_cases H :=
  cbn [In] in H;
  repeat (destruct H as [H | H]; [try discriminate H |]);
  try contradiction.

Ltac in_solve := cbn [In]; repeat first [left; reflexivity | right].

(** Membership in a closed trace, by position. *)
Ltac in_at n := apply (nth_error_In _ n); vm_compute; reflexivity.

(** Read the selected variant off the fields the run found. *)
Ltac select_variant Hfp Hs :=
  unfold first_present, present, priority in Hfp;
  cbn [List.find variant_cfg] in Hfp;
  repeat match goal with
         | H : regression_metric _ = _ |- _ => rewrite H in Hfp
         | H : referenceless_regression_metric _ = _ |- _ => rewrite H in Hfp
         | H : ranking_metric _ = _ |- _ => rewrite H in Hfp
         | H : unite_metric _ = _ |- _ => rewrite H in Hfp
         | H : cspec_metric _ = _ |- _ => rewrite H in Hfp
         end;
  first [discriminate Hfp | injection Hfp as <-];
  cbn [variant_cfg] in Hs;
  match type of Hs with
  | ?x = Some _ =>
      match goal with H : x = Some _ |- _ => rewrite H in Hs end
  end;
  injection Hs as <-.

Lemma nil_split {A} (e : A) pre post : [] = pre ++ e :: post → False.
Proof. destruct pre; discriminate. Qed.

Lemma cons_split {A} (x e : A) l pre post :
  x :: l = pre ++ e :: post →
  (pre = [] ∧ x = e ∧ l = post) ∨
  (∃ pre', pre = x :: pre' ∧ l = pre' ++ e :: post).
Proof.
  destruct pre as [| y pre']; cbn [app]; intros H; injection H as -> ->; eauto.
Qed.

(** Every way an event can sit in a known trace [H : trace = pre ++ e :: post];
    the goals left are the positions where the event fits. *)
Ltac trace_split H :=
  lazymatch type of H with
  | [] = _ => exfalso; exact (nil_split _ _ _ H)
  | _ :: _ = _ =>
      let p := fresh "pr" in
      apply cons_split in H;
      destruct H as [(-> & H & <-) | (p & -> & H)];
      [try discriminate H | trace_split H]
  end.

Section Properties.

Context {Obj Namespace : Type} (E : Externals Obj Namespace).
Implicit Types (cfg : Config Namespace) (kw : gmap string (value Obj)).

(** C3. Whatever the configuration holds, also a [callbacks] entry of the
    user's own under the trainer's [init_args], the mapping the driver
    constructor receives binds [callbacks] to exactly the three callbacks
    built in this run: the early-stopping, the checkpoint and the
    learning-rate one. *)
Theorem callbacks_key_overwritten cfg kw :
  In (EvNew Trainer kw) (trace_of (train_command_cfg E cfg)) →
  ∃ oes omc olr,
    kw !! "callbacks" =
      Some (VList [VObj EarlyStopping oes; VObj ModelCheckpoint omc;
                   VObj LearningRateMonitor olr]) ∧
    In (EvBuilt EarlyStopping oes) (trace_of (train_command_cfg E cfg)) ∧
    In (EvBuilt ModelCheckpoint omc) (trace_of (train_command_cfg E cfg)) ∧
    In (EvBuilt LearningRateMonitor olr)
       (trace_of (train_command_cfg E cfg)).
Proof.
  revert kw. run_cases t r; intros kw H; in_cases H.
  all: injection H as <-; do 3 eexists.
  all: rewrite lookup_insert_eq; split; [reflexivity | repeat split; in_solve].
Qed.

(** C4. The callback list handed to the driver has length 3 and holds, in
    this order, an [EarlyStopping], a [ModelCheckpoint] and a
    [LearningRateMonitor], for every configuration. *)
Theorem callback_list_fixed_order cfg kw :
  In (EvNew Trainer kw) (trace_of (train_command_cfg E cfg)) →
  ∃ l,
    kw !! "callbacks" = Some (VList l) ∧
    length l = 3%nat ∧
    class_of <$> l =
      [Some EarlyStopping; Some ModelCheckpoint; Some LearningRateMonitor].
Proof.
  revert kw. run_cases t r; intros kw H; in_cases H.
  all: injection H as <-; eexists.
  all: rewrite lookup_insert_eq; repeat split; reflexivity.
Qed.

(** C8. Every call of the [LearningRateMonitor] constructor passes the one
    keyword argument [logging_interval="step"], a constant of the source
    that no configuration changes. *)
Theorem lr_monitor_logs_per_step cfg kw :
  In (EvNew LearningRateMonitor kw) (trace_of (train_command_cfg E cfg)) →
  kw = {["logging_interval" := VStr "step"]}.
Proof.
  revert kw. run_cases t r; intros kw H; in_cases H.
  all: injection H as <-; reflexivity.
Qed.

(** C9. Every key other than [callbacks] reaches the driver constructor
    with the value the trainer's [init_args] give it (as a dictionary);
    a key they do not have stays absent. *)
Theorem trainer_args_frame cfg s kw k :
  trainer cfg = Some s →
  In (EvNew Trainer kw) (trace_of (train_command_cfg E cfg)) →
  k ≠ "callbacks" →
  kw !! k = namespace_to_dict E (init_args s) !! k.
Proof.
  intros Hs H Hk. revert kw H. run_cases t r; intros kw H; in_cases H.
  all: injection H as <-.
  all: rewrite lookup_insert_ne by congruence.
  all: congruence.
Qed.

(** C1. When some variant is configured, let [v] be the variant earliest
    in the priority order whose sub-configuration is present.  The only
    model constructor a run calls is the one of [v], on the arguments of
    that sub-configuration, and it is called at most once; it is called as
    soon as the driver is built and the audit print of the arguments
    succeeds.  Variants configured later in the order are ignored: the run
    is the one of the configuration that holds [v] alone.  The model a run
    builds is the instance that constructor returned, an instance of [v],
    and it is the model handed to [fit]; when the constructor returns, the
    run has built that model and reaches [fit] with it. *)
Theorem first_present_variant_selected cfg v0 s0 :
  variant_cfg cfg v0 = Some s0 →
  ∃ v s,
    first_present cfg = Some v ∧
    variant_cfg cfg v = Some s ∧
    (model_calls (trace_of (train_command_cfg E cfg)) = [] ∨
     model_calls (trace_of (train_command_cfg E cfg)) =
       [(v, namespace_to_dict E (init_args s))]) ∧
    (∀ o txt,
       In (EvBuilt Trainer o) (trace_of (train_command_cfg E cfg)) →
       json_dumps_ns E (init_args s) = inr txt →
       model_calls (trace_of (train_command_cfg E cfg)) =
         [(v, namespace_to_dict E (init_args s))]) ∧
    train_command_cfg E cfg = train_command_cfg E (only v cfg) ∧
    (∀ v' om,
       In (EvBuilt (Model v') om) (trace_of (train_command_cfg E cfg)) →
       v' = v ∧
       init E (Model v) (namespace_to_dict E (init_args s)) = inr om) ∧
    (∀ tr m,
       In (EvFit tr m) (trace_of (train_command_cfg E cfg)) →
       ∃ om, m = VObj (Model v) om ∧
             In (EvBuilt (Model v) om)
                (trace_of (train_command_cfg E cfg))) ∧
    (∀ otr txt om,
       In (EvBuilt Trainer otr) (trace_of (train_command_cfg E cfg)) →
       json_dumps_ns E (init_args s) = inr txt →
       init E (Model v) (namespace_to_dict E (init_args s)) = inr om →
       In (EvBuilt (Model v) om) (trace_of (train_command_cfg E cfg)) ∧
       In (EvFit (VObj Trainer otr) (VObj (Model v) om))
          (trace_of (train_command_cfg E cfg))).
Proof.
  intros H0.
  assert (∃ v s, first_present cfg = Some v ∧ variant_cfg cfg v = Some s)
    as (v & s & Hfp & Hs).
  { unfold first_present, present, priority.
    cbn [List.find variant_cfg].
    destruct (regression_metric cfg) as [s1 |] eqn:H1;
      [exists RegressionMetric, s1; auto |].
    destruct (referenceless_regression_metric cfg) as [s2 |] eqn:H2;
      [exists ReferencelessRegression, s2; auto |].
    destruct (ranking_metric cfg) as [s3 |] eqn:H3;
      [exists RankingMetric, s3; auto |].
    destruct (unite_metric cfg) as [s4 |] eqn:H4;
      [exists UniTEMetric, s4; auto |].
    destruct (cspec_metric cfg) as [s5 |] eqn:H5;
      [exists CSPECMetric, s5; auto |].
    destruct v0; cbn [variant_cfg] in H0; congruence. }
  clear H0. exists v, s.
  split; [exact Hfp |]. split; [exact Hs |].
  split; [| split; [| split; [| split; [| split]]]].
  - run_cases t r; cbn [model_calls omap list_omap]; auto.
    all: right; select_variant Hfp Hs; reflexivity.
  - intros o txt H Hd. revert H.
    run_cases t r; intros H; cbn [model_calls omap list_omap].
    all: try (in_cases H; fail).
    all: select_variant Hfp Hs; try congruence; reflexivity.
  - destruct cfg as [seed rm rrm rk um cm es mc tr].
    unfold first_present, present, priority in Hfp.
    cbn in Hfp, Hs.
    destruct rm, rrm, rk, um, cm; cbn in Hfp; try discriminate Hfp.
    all: injection Hfp as <-; reflexivity.
  - intros va oa H. revert H.
    run_cases t r; intros H; in_cases H.
    all: injection H as <- <-.
    all: select_variant Hfp Hs; split; [reflexivity | assumption].
  - intros ta ma H. revert H.
    run_cases t r; intros H; in_cases H.
    all: injection H as <- <-.
    all: select_variant Hfp Hs.
    all: eexists; split; [reflexivity | in_solve].
  - intros ota txa oa H Hd Hi. revert H.
    run_cases t r; intros H; in_cases H.
    all: injection H as <-.
    all: select_variant Hfp Hs; try congruence.
    all: match goal with
         | H1 : init E ?c ?k = inr ?a, H2 : init E ?c ?k = inr ?b |- _ =>
             assert (a = b) as <- by congruence
         end.
    all: split; in_solve.
Qed.


(** C5. The steps of a run come in the order of section 4.5: resolution,
    seeding, callbacks, driver, model, warning filter, [fit].  A callback
    constructor is called only after resolution, the driver constructor
    only after the three callbacks are built, and a model constructor only
    after the driver is built. *)
Theorem steps_in_order argv :
  nondecreasing (steps (trace_of (train_command E argv))) = true ∧
  (∀ pre c kw post,
     trace_of (train_command E argv) = pre ++ EvNew c kw :: post →
     In EvParseArgs pre ∧ ∃ cfg, parse_args argv = inr cfg) ∧
  (∀ pre kw post,
     trace_of (train_command E argv) = pre ++ EvNew Trainer kw :: post →
     ∃ omc oes olr,
       In (EvBuilt ModelCheckpoint omc) pre ∧
       In (EvBuilt EarlyStopping oes) pre ∧
       In (EvBuilt LearningRateMonitor olr) pre) ∧
  (∀ pre v kw post,
     trace_of (train_command E argv) = pre ++ EvNew (Model v) kw :: post →
     ∃ o, In (EvBuilt Trainer o) pre).
Proof.
  run_cases t r.
  all: split; [reflexivity |].
  all: split;
    [intros pr cl ka po H; trace_split H; (split; [in_solve | eauto]) |].
  all: split;
    [intros pr ka po H; trace_split H;
     do 3 eexists; repeat split; in_solve |].
  all: intros pr va ka po H; trace_split H.
  all: eexists; in_solve.
Qed.

(** C6. Before any constructor is called, [seed_everything] has been called
    on the seed of the resolved configuration and has returned. *)
Theorem seeded_before_constructors argv pre c kw post :
  trace_of (train_command E argv) = pre ++ EvNew c kw :: post →
  ∃ cfg,
    parse_args argv = inr cfg ∧
    In (EvSeed (seed_everything cfg)) pre ∧
    pl_seed_everything E (seed_everything cfg) = inr ().
Proof.
  revert pre c kw post. run_cases t r; intros pr cl ka po H.
  all: trace_split H.
  all: eexists; split; [reflexivity |]; split; [in_solve |].
  all: match goal with u : unit |- _ => destruct u end; assumption.
Qed.

(** C10. The warning filter is installed at most once, after a model has
    been built and after every constructor call of the run; nothing but
    [fit] follows it.  A run whose configuration holds no variant, or whose
    command line does not parse, installs none. *)
Theorem warning_filter_after_model argv :
  (∀ pre a c m post,
     trace_of (train_command E argv) =
       pre ++ EvFilterWarnings a c m :: post →
     (∃ v o, In (EvBuilt (Model v) o) pre) ∧
     (∀ a' c' m', ¬ In (EvFilterWarnings a' c' m') pre) ∧
     (∀ ev, In ev post → step_of ev = Some Fit)) ∧
  (∀ cfg,
     parse_args argv = inr cfg →
     (∀ v, variant_cfg cfg v = None) →
     ∀ a c m, ¬ In (EvFilterWarnings a c m)
                 (trace_of (train_command E argv))) ∧
  (∀ e,
     parse_args argv = inl e →
     trace_of (train_command E argv) = [EvParseArgs]).
Proof.
  run_cases t r.
  all: split;
    [intros pr ac ca ms po H; trace_split H;
     (split; [do 2 eexists; in_solve |
        split; [intros ac' ca' ms' H'; in_cases H' |
          intros ev H'; in_cases H'; subst ev; reflexivity]]) |].
  all: split; [| intros; congruence].
  all: intros cfg Hp Hn ac ca ms H.
  all: first [discriminate Hp | injection Hp as <-].
  all: pose proof (Hn RegressionMetric) as H1.
  all: pose proof (Hn ReferencelessRegression) as H2.
  all: pose proof (Hn RankingMetric) as H3.
  all: pose proof (Hn UniTEMetric) as H4.
  all: pose proof (Hn CSPECMetric) as H5.
  all: cbn [variant_cfg] in H1, H2, H3, H4, H5.
  all: try congruence.
  all: in_cases H.
Qed.

(** Assignments that do not touch the seed leave it as it is. *)
Lemma fold_settings_seed (body : list (setting Namespace)) cfg :
  existsb sets_seed body = false →
  seed_everything (fold_left apply_setting body cfg) = seed_everything cfg.
Proof.
  revert cfg. induction body as [| s body IH]; intros cfg H; [reflexivity |].
  cbn [existsb] in H. apply orb_false_iff in H as [Hs Hb].
  cbn [fold_left]. rewrite IH by assumption.
  destruct s; [discriminate Hs | reflexivity].
Qed.

Lemma parse_from_seed argv cfg0 cfg :
  seed_flag_given argv = false →
  seed_in_cfg_file argv = false →
  parse_from cfg0 argv = inr cfg →
  seed_everything cfg = seed_everything cfg0.
Proof.
  revert cfg0.
  induction argv as [| a argv IH]; intros cfg0 Hf Hc Hp.
  - injection Hp as <-. reflexivity.
  - unfold seed_flag_given in Hf. unfold seed_in_cfg_file in Hc.
    cbn [existsb] in Hf, Hc.
    apply orb_false_iff in Hf as [Hf1 Hf2].
    apply orb_false_iff in Hc as [Hc1 Hc2].
    destruct a as [s | body | tok]; cbn [parse_from] in Hp.
    + rewrite (IH _ Hf2 Hc2 Hp).
      destruct s; [discriminate Hf1 | reflexivity].
    + rewrite (IH _ Hf2 Hc2 Hp). apply fold_settings_seed, Hc1.
    + discriminate Hp.
Qed.

(** C7, as the code has it.  When [--seed_everything] is absent from the
    command line and no configuration file named there holds the key, the
    resolved seed is the declared default, 12. *)
Theorem seed_defaults_to_12 argv cfg :
  seed_flag_given argv = false →
  seed_in_cfg_file argv = false →
  parse_args argv = inr cfg →
  seed_everything cfg = 12.
Proof.
  intros Hf Hc Hp. apply (parse_from_seed argv defaults cfg Hf Hc Hp).
Qed.

End Properties.

(** * Further behaviour of [train_command] *)

(** The selected variant, from the fields a run found. *)
Ltac first_present_solve :=
  unfold first_present, present, priority;
  cbn [List.find variant_cfg];
  repeat match goal with
         | H : regression_metric _ = _ |- _ => rewrite H
         | H : referenceless_regression_metric _ = _ |- _ => rewrite H
         | H : ranking_metric _ = _ |- _ => rewrite H
         | H : unite_metric _ = _ |- _ => rewrite H
         | H : cspec_metric _ = _ |- _ => rewrite H
         end;
  reflexivity.

Section Behaviour.

Context {Obj Namespace : Type} (E : Externals Obj Namespace).
Implicit Types (cfg : Config Namespace) (kw : gmap string (value Obj)).

(** A namespace of the callbacks or of the trainer that is [None] ends the
    run in an exception before the learning-rate monitor, the driver or a
    model is constructed and before anything is printed.  When it is the
    checkpoint namespace and seeding returned, the run stops right after
    seeding with the [AttributeError] of the attribute access on [None]. *)
Theorem missing_namespace_aborts cfg :
  model_checkpoint cfg = None ∨ early_stopping cfg = None ∨
    trainer cfg = None →
  (∃ e, result_of (train_command_cfg E cfg) = inl e) ∧
  (∀ c kw,
     In (EvNew c kw) (trace_of (train_command_cfg E cfg)) →
     c = ModelCheckpoint ∨ c = EarlyStopping) ∧
  (∀ txt, ¬ In (EvPrint txt) (trace_of (train_command_cfg E cfg))) ∧
  (model_checkpoint cfg = None →
   pl_seed_everything E (seed_everything cfg) = inr () →
   train_command_cfg E cfg =
     ([EvSeed (seed_everything cfg)],
      inl (PyErr "AttributeError"
                 "'NoneType' object has no attribute 'init_args'"))).
Proof.
  intros Hnone.
  run_cases t r.
  all: try (destruct Hnone as [Hn | [Hn | Hn]]; congruence).
  all: split; [eauto |].
  all: split; [intros cl ka H; in_cases H; injection H as <- _; auto |].
  all: split; [intros txt H; in_cases H |].
  all: intros Hmc Hseed; try congruence.
Qed.

(** An exception raised by a constructor is the outcome of the run, as it
    was raised, and the call is the last thing the run does. *)
Theorem constructor_failure_propagates cfg pre c kw post e :
  trace_of (train_command_cfg E cfg) = pre ++ EvNew c kw :: post →
  init E c kw = inl e →
  post = [] ∧ result_of (train_command_cfg E cfg) = inl e.
Proof.
  revert pre c kw post e.
  run_cases t r; intros pr cl ka po er H Hi.
  all: trace_split H.
  all: injection H as <- <-.
  all: try congruence.
  all: split; [reflexivity | congruence].
Qed.

(** [fit] is called on the driver and on the model this run built, the model
    being of the first present variant; the call is the last event of the
    run and its outcome is the outcome of the run. *)
Theorem fit_runs_last cfg tr m :
  In (EvFit tr m) (trace_of (train_command_cfg E cfg)) →
  ∃ otr v om,
    tr = VObj Trainer otr ∧
    m = VObj (Model v) om ∧
    first_present cfg = Some v ∧
    In (EvBuilt Trainer otr) (trace_of (train_command_cfg E cfg)) ∧
    In (EvBuilt (Model v) om) (trace_of (train_command_cfg E cfg)) ∧
    last (trace_of (train_command_cfg E cfg)) = Some (EvFit tr m) ∧
    result_of (train_command_cfg E cfg) = fit E tr m.
Proof.
  revert tr m. run_cases t r; intros tr m H; in_cases H.
  all: injection H as <- <-; do 3 eexists.
  all: split; [reflexivity |]; split; [reflexivity |].
  all: split; [first_present_solve |].
  all: split; [in_solve |]; split; [in_solve |].
  all: split; reflexivity.
Qed.

(** The dictionary printed under [TRAINER ARGUMENTS: ] is the one the driver
    constructor then receives: the two prints come right before the call and
    the text is the serialisation of the call's own arguments. *)
Theorem trainer_audit_matches_driver_args cfg pre kw post :
  trace_of (train_command_cfg E cfg) = pre ++ EvNew Trainer kw :: post →
  ∃ pre' txt,
    json_dumps E kw = inr txt ∧
    pre = pre' ++ [EvPrint "TRAINER ARGUMENTS: "; EvPrint txt].
Proof.
  revert pre kw post. run_cases t r; intros pr ka po H.
  all: trace_split H.
  all: injection H as <-.
  all: match goal with
       | |- ∃ p x, _ ∧ ?l = _ => exists (take 7 l); eexists
       end.
  all: split; [eassumption | reflexivity].
Qed.

(** The arguments printed under [MODEL ARGUMENTS: ] are those of the variant
    that is constructed next: a model constructor call comes right after the
    driver is built, the header and the serialised [init_args] of that
    variant's own sub-configuration, and receives those [init_args]. *)
Theorem model_audit_precedes_model cfg pre v kw post :
  trace_of (train_command_cfg E cfg) = pre ++ EvNew (Model v) kw :: post →
  ∃ pre' otr s txt,
    variant_cfg cfg v = Some s ∧
    json_dumps_ns E (init_args s) = inr txt ∧
    kw = namespace_to_dict E (init_args s) ∧
    pre = pre' ++ [EvBuilt Trainer otr; EvPrint "MODEL ARGUMENTS: ";
                   EvPrint txt].
Proof.
  revert pre v kw post. run_cases t r; intros pr va ka po H.
  all: trace_split H.
  all: injection H as <- <-.
  all: match goal with
       | |- ∃ p o s x, _ ∧ _ ∧ _ ∧ ?l = _ =>
           exists (take 10 l); do 3 eexists
       end.
  all: cbn [variant_cfg].
  all: split; [eassumption |]; split; [eassumption |].
  all: split; reflexivity.
Qed.

(** Only [init_args] is read from a sub-configuration: a [class_path] naming
    another class changes nothing, the class constructed is the one the
    source names. *)
Theorem class_path_ignored cfg cfg' :
  same_init_args cfg cfg' →
  train_command_cfg E cfg = train_command_cfg E cfg'.
Proof.
  intros [Hseed Hsub].
  pose proof (Hsub K_regression_metric) as H1.
  pose proof (Hsub K_referenceless_regression_metric) as H2.
  pose proof (Hsub K_ranking_metric) as H3.
  pose proof (Hsub K_unite_metric) as H4.
  pose proof (Hsub K_cspec_metric) as H5.
  pose proof (Hsub K_early_stopping) as H6.
  pose proof (Hsub K_model_checkpoint) as H7.
  pose proof (Hsub K_trainer) as H8.
  clear Hsub.
  destruct cfg as [seed rm rrm rk um cm es mc tr].
  destruct cfg' as [seed' rm' rrm' rk' um' cm' es' mc' tr'].
  cbn [get_sub seed_everything regression_metric
         referenceless_regression_metric ranking_metric unite_metric
         cspec_metric early_stopping model_checkpoint trainer] in *.
  subst seed'.
  unfold train_command_cfg, build_model, get_init_args.
  cbn [seed_everything regression_metric referenceless_regression_metric
         ranking_metric unite_metric cspec_metric early_stopping
         model_checkpoint trainer].
  destruct mc as [[? ?] |], mc' as [[? ?] |]; cbn in H7; try discriminate H7;
    [injection H7 as <- |].
  all: destruct es as [[? ?] |], es' as [[? ?] |]; cbn in H6;
    try discriminate H6; try (injection H6 as <-).
  all: destruct tr as [[? ?] |], tr' as [[? ?] |]; cbn in H8;
    try discriminate H8; try (injection H8 as <-).
  all: destruct rm as [[? ?] |], rm' as [[? ?] |]; cbn in H1;
    try discriminate H1; try (injection H1 as <-).
  all: destruct rrm as [[? ?] |], rrm' as [[? ?] |]; cbn in H2;
    try discriminate H2; try (injection H2 as <-).
  all: destruct rk as [[? ?] |], rk' as [[? ?] |]; cbn in H3;
    try discriminate H3; try (injection H3 as <-).
  all: destruct um as [[? ?] |], um' as [[? ?] |]; cbn in H4;
    try discriminate H4; try (injection H4 as <-).
  all: destruct cm as [[? ?] |], cm' as [[? ?] |]; cbn in H5;
    try discriminate H5; try (injection H5 as <-).
  all: reflexivity.
Qed.

(** Every run calls the constructors in the order [ModelCheckpoint],
    [EarlyStopping], [LearningRateMonitor], [Trainer], then one model, each
    at most once, and stops at the first failure: a constructor that raises
    is the last one called and returns no instance, and every constructor
    called before the last has returned.  A run that returns normally has
    called all five and all five have returned, the model being of the
    first present variant. *)
Theorem constructors_in_order cfg :
  (new_classes (trace_of (train_command_cfg E cfg))
     `prefix_of`
     [ModelCheckpoint; EarlyStopping; LearningRateMonitor; Trainer] ∨
   ∃ v, first_present cfg = Some v ∧
        new_classes (trace_of (train_command_cfg E cfg)) =
          [ModelCheckpoint; EarlyStopping; LearningRateMonitor; Trainer;
           Model v]) ∧
  (∀ c kw e,
     In (EvNew c kw) (trace_of (train_command_cfg E cfg)) →
     init E c kw = inl e →
     last (new_classes (trace_of (train_command_cfg E cfg))) = Some c ∧
     new_classes (trace_of (train_command_cfg E cfg)) =
       built_classes (trace_of (train_command_cfg E cfg)) ++ [c]) ∧
  (new_classes (trace_of (train_command_cfg E cfg)) =
     built_classes (trace_of (train_command_cfg E cfg)) ∨
   ∃ c kw e,
     In (EvNew c kw) (trace_of (train_command_cfg E cfg)) ∧
     init E c kw = inl e ∧
     new_classes (trace_of (train_command_cfg E cfg)) =
       built_classes (trace_of (train_command_cfg E cfg)) ++ [c]) ∧
  (result_of (train_command_cfg E cfg) = inr () →
   ∃ v, first_present cfg = Some v ∧
        new_classes (trace_of (train_command_cfg E cfg)) =
          [ModelCheckpoint; EarlyStopping; LearningRateMonitor; Trainer;
           Model v] ∧
        built_classes (trace_of (train_command_cfg E cfg)) =
          [ModelCheckpoint; EarlyStopping; LearningRateMonitor; Trainer;
           Model v]).
Proof.
  split; [| split; [| split]].
  - run_cases t r; cbn [new_classes omap list_omap].
    all: try (left; eexists; reflexivity).
    all: right; eexists; split; [first_present_solve | reflexivity].
  - run_cases t r; intros cl ka er H Hi; in_cases H.
    all: injection H as <- <-.
    all: try congruence.
    all: split; reflexivity.
  - run_cases t r; cbn [new_classes built_classes omap list_omap].
    all: try (left; reflexivity).
    all: right; do 3 eexists.
    all: split; [| split; [eassumption | reflexivity]].
    all: in_solve.
  - run_cases t r; intros Hr; try discriminate Hr.
    all: eexists; split; [first_present_solve | split; reflexivity].
Qed.

(** The checkpoint and the early-stopping constructors receive the
    [init_args] of their own namespaces. *)
Theorem callback_args_forwarded cfg kw :
  (In (EvNew ModelCheckpoint kw) (trace_of (train_command_cfg E cfg)) →
   ∃ s, model_checkpoint cfg = Some s ∧
        kw = namespace_to_dict E (init_args s)) ∧
  (In (EvNew EarlyStopping kw) (trace_of (train_command_cfg E cfg)) →
   ∃ s, early_stopping cfg = Some s ∧
        kw = namespace_to_dict E (init_args s)).
Proof.
  revert kw. run_cases t r; intros ka.
  all: split; intros H; in_cases H.
  all: injection H as <-; eexists.
  all: split; [first [reflexivity | eassumption] | reflexivity].
Qed.

(** When [json.dumps] raises on the trainer dictionary the run has built
    (the trainer's [init_args] with [callbacks] bound to the three callbacks
    of this run), that exception is the outcome of the run, the header
    [TRAINER ARGUMENTS: ] is the last thing it does, and neither the driver
    nor a model is constructed. *)
Theorem audit_failure_blocks_driver cfg s oes omc olr e :
  trainer cfg = Some s →
  In (EvBuilt EarlyStopping oes) (trace_of (train_command_cfg E cfg)) →
  In (EvBuilt ModelCheckpoint omc) (trace_of (train_command_cfg E cfg)) →
  In (EvBuilt LearningRateMonitor olr) (trace_of (train_command_cfg E cfg)) →
  json_dumps E
    (<["callbacks" :=
         VList [VObj EarlyStopping oes; VObj ModelCheckpoint omc;
                VObj LearningRateMonitor olr]]>
       (namespace_to_dict E (init_args s))) = inl e →
  result_of (train_command_cfg E cfg) = inl e ∧
  last (trace_of (train_command_cfg E cfg)) =
    Some (EvPrint "TRAINER ARGUMENTS: ") ∧
  (∀ kw, ¬ In (EvNew Trainer kw) (trace_of (train_command_cfg E cfg))) ∧
  model_calls (trace_of (train_command_cfg E cfg)) = [].
Proof.
  intros Hs Hes Hmc Hlr Hd. revert Hes Hmc Hlr.
  run_cases t r; intros Hes Hmc Hlr.
  all: in_cases Hes; in_cases Hmc; in_cases Hlr.
  all: injection Hes as <-; injection Hmc as <-; injection Hlr as <-.
  all: try congruence.
  all: split; [congruence |]; split; [reflexivity |].
  all: split; [intros ka H; in_cases H | reflexivity].
Qed.

(** [seed_everything] is the first thing a run does and is called once;
    when it raises, the run does nothing else. *)
Theorem seeded_once_first cfg :
  (∃ rest,
     trace_of (train_command_cfg E cfg) = EvSeed (seed_everything cfg) :: rest ∧
     ∀ z, ¬ In (EvSeed z) rest) ∧
  (∀ e,
     pl_seed_everything E (seed_everything cfg) = inl e →
     train_command_cfg E cfg = ([EvSeed (seed_everything cfg)], inl e)).
Proof.
  run_cases t r.
  all: split; [eexists; split; [reflexivity | intros z H; in_cases H] |].
  all: intros er Her; congruence.
Qed.

End Behaviour.

(** * The properties on concrete runs *)

Lemma first_present_variant_selected_witness :
  variant_cfg cfg_two CSPECMetric = Some (sub_of ∅) ∧
  model_calls (trace_of (train_command_cfg quiet cfg_two)) =
    [(RankingMetric, {["margin" := VInt 1]})] ∧
  train_command_cfg quiet cfg_two =
    train_command_cfg quiet (only RankingMetric cfg_two) ∧
  In (EvBuilt (Model RankingMetric) 5%nat)
     (trace_of (train_command_cfg quiet cfg_two)) ∧
  In (EvFit (VObj Trainer 4%nat) (VObj (Model RankingMetric) 5%nat))
     (trace_of (train_command_cfg quiet cfg_two)).
Proof.
  split; [reflexivity |].
  destruct (first_present_variant_selected quiet cfg_two CSPECMetric
              (sub_of ∅) eq_refl)
    as (v & s & Hfp & Hs & _ & Hcall & Honly & _ & _ & Hbuilt).
  injection Hfp as <-. injection Hs as <-.
  assert (Htr : In (EvBuilt Trainer 4%nat)
                   (trace_of (train_command_cfg quiet cfg_two)))
    by (in_at 10%nat).
  split; [apply (Hcall 4%nat "{}"); [exact Htr | reflexivity] |].
  split; [exact Honly |].
  apply (Hbuilt 4%nat "{}" 5%nat); [exact Htr | reflexivity | reflexivity].
Defined.



Lemma callbacks_key_overwritten_witness :
  (namespace_to_dict quiet (<["callbacks" := VList [VStr "mine"]]>
                              {["max_epochs" := VInt 10]}))
    !! "callbacks" = Some (VList [VStr "mine"]) ∧
  In (EvNew Trainer kw_ranking) (trace_of (train_command_cfg quiet cfg_ranking)) ∧
  ∃ oes omc olr,
    kw_ranking !! "callbacks" =
      Some (VList [VObj EarlyStopping oes; VObj ModelCheckpoint omc;
                   VObj LearningRateMonitor olr]) ∧
    In (EvBuilt EarlyStopping oes) (trace_of (train_command_cfg quiet cfg_ranking)) ∧
    In (EvBuilt ModelCheckpoint omc)
       (trace_of (train_command_cfg quiet cfg_ranking)) ∧
    In (EvBuilt LearningRateMonitor olr)
       (trace_of (train_command_cfg quiet cfg_ranking)).
Proof.
  assert (Hin : In (EvNew Trainer kw_ranking)
                   (trace_of (train_command_cfg quiet cfg_ranking)))
    by (in_at 9%nat).
  split; [reflexivity |]. split; [exact Hin |].
  exact (callbacks_key_overwritten quiet cfg_ranking kw_ranking Hin).
Defined.

Lemma callback_list_fixed_order_witness :
  In (EvNew Trainer kw_ranking) (trace_of (train_command_cfg quiet cfg_ranking)) ∧
  ∃ l,
    kw_ranking !! "callbacks" = Some (VList l) ∧
    length l = 3%nat ∧
    class_of <$> l =
      [Some EarlyStopping; Some ModelCheckpoint; Some LearningRateMonitor].
Proof.
  assert (Hin : In (EvNew Trainer kw_ranking)
                   (trace_of (train_command_cfg quiet cfg_ranking)))
    by (in_at 9%nat).
  split; [exact Hin |].
  exact (callback_list_fixed_order quiet cfg_ranking kw_ranking Hin).
Defined.

Lemma lr_monitor_logs_per_step_witness :
  In (EvNew LearningRateMonitor {["logging_interval" := VStr "step"]})
     (trace_of (train_command_cfg quiet cfg_ranking)) ∧
  ({["logging_interval" := VStr "step"]} : gmap string (value nat)) =
    {["logging_interval" := VStr "step"]}.
Proof.
  assert (Hin : In (EvNew LearningRateMonitor
                      {["logging_interval" := VStr "step"]})
                   (trace_of (train_command_cfg quiet cfg_ranking)))
    by (in_at 5%nat).
  split; [exact Hin |].
  exact (lr_monitor_logs_per_step quiet cfg_ranking _ Hin).
Defined.

Lemma trainer_args_frame_witness :
  kw_ranking !! "max_epochs" = Some (VInt 10).
Proof.
  rewrite (trainer_args_frame quiet cfg_ranking
             (sub_of (<["callbacks" := VList [VStr "mine"]]>
                        {["max_epochs" := VInt 10]}))
             kw_ranking "max_epochs").
  - reflexivity.
  - reflexivity.
  - in_at 9%nat.
  - discriminate.
Defined.

Lemma steps_in_order_witness :
  parse_args argv_ranking = inr cfg_ranking ∧
  trace_of (train_command quiet argv_ranking) =
    take 14 (trace_of (train_command quiet argv_ranking))
    ++ EvNew (Model RankingMetric) {["margin" := VInt 1]}
    :: drop 15 (trace_of (train_command quiet argv_ranking)) ∧
  ∃ o, In (EvBuilt Trainer o)
          (take 14 (trace_of (train_command quiet argv_ranking))).
Proof.
  split; [reflexivity |].
  assert (Hsplit :
    trace_of (train_command quiet argv_ranking) =
      take 14 (trace_of (train_command quiet argv_ranking))
      ++ EvNew (Model RankingMetric) {["margin" := VInt 1]}
      :: drop 15 (trace_of (train_command quiet argv_ranking)))
    by (vm_compute; reflexivity).
  split; [exact Hsplit |].
  destruct (steps_in_order quiet argv_ranking) as (_ & _ & _ & H).
  exact (H _ _ _ _ Hsplit).
Defined.

Lemma seeded_before_constructors_witness :
  trace_of (train_command quiet argv_ranking) =
    take 2 (trace_of (train_command quiet argv_ranking))
    ++ EvNew ModelCheckpoint ∅
    :: drop 3 (trace_of (train_command quiet argv_ranking)) ∧
  ∃ cfg,
    parse_args argv_ranking = inr cfg ∧
    In (EvSeed (seed_everything cfg))
       (take 2 (trace_of (train_command quiet argv_ranking))) ∧
    pl_seed_everything quiet (seed_everything cfg) = inr ().
Proof.
  assert (Hsplit :
    trace_of (train_command quiet argv_ranking) =
      take 2 (trace_of (train_command quiet argv_ranking))
      ++ EvNew ModelCheckpoint ∅
      :: drop 3 (trace_of (train_command quiet argv_ranking)))
    by (vm_compute; reflexivity).
  split; [exact Hsplit |].
  exact (seeded_before_constructors quiet argv_ranking _ _ _ _ Hsplit).
Defined.

Lemma warning_filter_after_model_witness :
  (∃ v o, In (EvBuilt (Model v) o)
             (take 16 (trace_of (train_command quiet argv_ranking)))) ∧
  (∀ a c m, ¬ In (EvFilterWarnings a c m)
                (trace_of (train_command quiet argv_none))).
Proof.
  destruct (warning_filter_after_model quiet argv_ranking) as (Hin & _ & _).
  destruct (warning_filter_after_model quiet argv_none) as (_ & Hnone & _).
  split.
  - destruct (Hin (take 16 (trace_of (train_command quiet argv_ranking)))
                "ignore" "UserWarning"
                ".*Consider increasing the value of the `num_workers` argument` .*"
                (drop 17 (trace_of (train_command quiet argv_ranking))))
      as (Hbuilt & _ & _); [vm_compute; reflexivity | exact Hbuilt].
  - apply (Hnone cfg_none); [reflexivity |].
    intros v; destruct v; reflexivity.
Defined.

Lemma seed_defaults_to_12_witness :
  seed_flag_given argv_ranking = false ∧
  seed_in_cfg_file argv_ranking = false ∧
  seed_everything cfg_ranking = 12.
Proof.
  split; [reflexivity |]. split; [reflexivity |].
  apply (seed_defaults_to_12 argv_ranking cfg_ranking); reflexivity.
Defined.

(** C7, as stated, fails on [argv_seed_file]: the flag is absent and the seed
    is the one of the configuration file. *)
Lemma seed_taken_from_cfg_file :
  seed_flag_given argv_seed_file = false ∧
  ∃ cfg,
    parse_args argv_seed_file = inr cfg ∧
    seed_everything cfg = 42 ∧
    seed_everything cfg ≠ 12.
Proof.
  split; [reflexivity |].
  eexists; split; [reflexivity |]. split; [reflexivity | discriminate].
Qed.

(** * The further behaviour on concrete runs *)

Lemma missing_namespace_aborts_witness :
  model_checkpoint cfg_no_checkpoint = None ∧
  train_command_cfg quiet cfg_no_checkpoint =
    ([EvSeed 12],
     inl (PyErr "AttributeError"
                "'NoneType' object has no attribute 'init_args'")).
Proof.
  split; [reflexivity |].
  destruct (missing_namespace_aborts quiet cfg_no_checkpoint
              (or_introl eq_refl)) as (_ & _ & _ & H).
  apply H; reflexivity.
Defined.

Lemma constructor_failure_propagates_witness :
  init strict Trainer kw_ranking =
    inl (PyErr "TypeError" "unexpected keyword argument") ∧
  drop 10 (trace_of (train_command_cfg strict cfg_ranking)) = [] ∧
  result_of (train_command_cfg strict cfg_ranking) =
    inl (PyErr "TypeError" "unexpected keyword argument").
Proof.
  split; [reflexivity |].
  apply (constructor_failure_propagates strict cfg_ranking
           (take 9 (trace_of (train_command_cfg strict cfg_ranking)))
           Trainer kw_ranking);
    [vm_compute; reflexivity | reflexivity].
Defined.

Lemma fit_runs_last_witness :
  In (EvFit (VObj Trainer 4%nat) (VObj (Model RankingMetric) 5%nat))
     (trace_of (train_command_cfg quiet cfg_ranking)) ∧
  ∃ otr v om,
    VObj Trainer 4%nat = VObj Trainer otr ∧
    VObj (Model RankingMetric) 5%nat = VObj (Model v) om ∧
    first_present cfg_ranking = Some v ∧
    In (EvBuilt Trainer otr) (trace_of (train_command_cfg quiet cfg_ranking)) ∧
    In (EvBuilt (Model v) om) (trace_of (train_command_cfg quiet cfg_ranking)) ∧
    last (trace_of (train_command_cfg quiet cfg_ranking)) =
      Some (EvFit (VObj Trainer 4%nat) (VObj (Model RankingMetric) 5%nat)) ∧
    result_of (train_command_cfg quiet cfg_ranking) =
      fit quiet (VObj Trainer 4%nat) (VObj (Model RankingMetric) 5%nat).
Proof.
  assert (Hin : In (EvFit (VObj Trainer 4%nat)
                          (VObj (Model RankingMetric) 5%nat))
                   (trace_of (train_command_cfg quiet cfg_ranking)))
    by (in_at 16%nat).
  split; [exact Hin |].
  exact (fit_runs_last quiet cfg_ranking _ _ Hin).
Defined.

Lemma trainer_audit_matches_driver_args_witness :
  ∃ pre' txt,
    json_dumps quiet kw_ranking = inr txt ∧
    take 9 (trace_of (train_command_cfg quiet cfg_ranking)) =
      pre' ++ [EvPrint "TRAINER ARGUMENTS: "; EvPrint txt].
Proof.
  apply (trainer_audit_matches_driver_args quiet cfg_ranking
           (take 9 (trace_of (train_command_cfg quiet cfg_ranking)))
           kw_ranking
           (drop 10 (trace_of (train_command_cfg quiet cfg_ranking)))).
  vm_compute; reflexivity.
Defined.

Lemma model_audit_precedes_model_witness :
  ∃ pre' otr s txt,
    variant_cfg cfg_two RankingMetric = Some s ∧
    json_dumps_ns quiet (init_args s) = inr txt ∧
    ({["margin" := VInt 1]} : gmap string (value nat)) =
      namespace_to_dict quiet (init_args s) ∧
    take 13 (trace_of (train_command_cfg quiet cfg_two)) =
      pre' ++ [EvBuilt Trainer otr; EvPrint "MODEL ARGUMENTS: "; EvPrint txt].
Proof.
  apply (model_audit_precedes_model quiet cfg_two
           (take 13 (trace_of (train_command_cfg quiet cfg_two)))
           RankingMetric {["margin" := VInt 1]}
           (drop 14 (trace_of (train_command_cfg quiet cfg_two)))).
  vm_compute; reflexivity.
Defined.

Lemma class_path_ignored_witness :
  ranking_metric cfg_two ≠ ranking_metric cfg_two_subclass ∧
  train_command_cfg quiet cfg_two = train_command_cfg quiet cfg_two_subclass.
Proof.
  split; [discriminate |].
  apply (class_path_ignored quiet cfg_two cfg_two_subclass).
  split; [reflexivity | intros k; destruct k; reflexivity].
Defined.

Lemma constructors_in_order_witness :
  (result_of (train_command_cfg quiet cfg_two) = inr () ∧
   ∃ v, first_present cfg_two = Some v ∧
        new_classes (trace_of (train_command_cfg quiet cfg_two)) =
          [ModelCheckpoint; EarlyStopping; LearningRateMonitor; Trainer;
           Model v] ∧
        built_classes (trace_of (train_command_cfg quiet cfg_two)) =
          [ModelCheckpoint; EarlyStopping; LearningRateMonitor; Trainer;
           Model v]) ∧
  (init strict Trainer kw_ranking =
     inl (PyErr "TypeError" "unexpected keyword argument") ∧
   last (new_classes (trace_of (train_command_cfg strict cfg_ranking))) =
     Some Trainer ∧
   new_classes (trace_of (train_command_cfg strict cfg_ranking)) =
     built_classes (trace_of (train_command_cfg strict cfg_ranking))
     ++ [Trainer]).
Proof.
  split.
  - assert (Hr : result_of (train_command_cfg quiet cfg_two) = inr ())
      by (vm_compute; reflexivity).
    split; [exact Hr |].
    destruct (constructors_in_order quiet cfg_two) as (_ & _ & _ & H).
    exact (H Hr).
  - split; [reflexivity |].
    destruct (constructors_in_order strict cfg_ranking) as (_ & H & _).
    apply (H Trainer kw_ranking
             (PyErr "TypeError" "unexpected keyword argument"));
      [in_at 9%nat | reflexivity].
Defined.

Lemma callback_args_forwarded_witness :
  In (EvNew ModelCheckpoint ∅) (trace_of (train_command_cfg quiet cfg_ranking)) ∧
  ∃ s, model_checkpoint cfg_ranking = Some s ∧
       (∅ : gmap string (value nat)) = namespace_to_dict quiet (init_args s).
Proof.
  assert (Hin : In (EvNew ModelCheckpoint ∅)
                   (trace_of (train_command_cfg quiet cfg_ranking)))
    by (in_at 1%nat).
  split; [exact Hin |].
  destruct (callback_args_forwarded quiet cfg_ranking ∅) as [H _].
  exact (H Hin).
Defined.

Lemma audit_failure_blocks_driver_witness :
  json_dumps picky (<["callbacks" := VList [VStr "mine"]]>
                      {["max_epochs" := VInt 10]}) = inr "{}" ∧
  json_dumps picky kw_ranking =
    inl (PyErr "ValueError" "Circular reference detected") ∧
  result_of (train_command_cfg picky cfg_ranking) =
    inl (PyErr "ValueError" "Circular reference detected") ∧
  last (trace_of (train_command_cfg picky cfg_ranking)) =
    Some (EvPrint "TRAINER ARGUMENTS: ") ∧
  (∀ kw, ¬ In (EvNew Trainer kw)
           (trace_of (train_command_cfg picky cfg_ranking))) ∧
  model_calls (trace_of (train_command_cfg picky cfg_ranking)) = [].
Proof.
  split; [reflexivity |]. split; [reflexivity |].
  apply (audit_failure_blocks_driver picky cfg_ranking
           (sub_of (<["callbacks" := VList [VStr "mine"]]>
                      {["max_epochs" := VInt 10]}))
           2%nat 1%nat 3%nat).
  - reflexivity.
  - in_at 4%nat.
  - in_at 2%nat.
  - in_at 6%nat.
  - reflexivity.
Defined.

Lemma seeded_once_first_witness :
  pl_seed_everything bounded (seed_everything cfg_bad_seed) =
    inl (PyErr "ValueError" "seed out of bounds") ∧
  train_command_cfg bounded cfg_bad_seed =
    ([EvSeed (-1)], inl (PyErr "ValueError" "seed out of bounds")).
Proof.
  split; [reflexivity |].
  destruct (seeded_once_first bounded cfg_bad_seed) as [_ H].
  apply H. reflexivity.
Defined.
